(** * archinstall/lib/models/users.py

    A shallow embedding of the two components of [users.py]:

    - [PasswordStrength]: the strength classifier
      ([strength], [_check_password_strength], [color]);
    - [User]: the user record with its serializer [json] and the
      configuration parsers [_parse], [_parse_backwards_compatible] and
      [parse_arguments].

    Python values are dynamically typed, so the parser is embedded over a
    small universe of JSON-like values and an error monad that records the
    exception a Python run would raise. *)

From Stdlib Require Import ZArith NArith Bool List String Ascii Lia Permutation.
Import ListNotations.

Local Open Scope string_scope.
Local Open Scope list_scope.
Local Open Scope Z_scope.

#[local] Set Warnings "-register-all".

(* ================================================================== *)
(** * Part I. PasswordStrength *)
(* ================================================================== *)

(** A Python [str] is a sequence of Unicode code points. *)
Definition char := N.
Definition pystr := list char.

(** [len(password)] *)
Definition len (password : pystr) : Z := Z.of_nat (List.length password).

(** The four [str] methods the classifier calls on single characters.
    Their tables belong to the Python runtime (the Unicode database), not to
    this module, so the embedding takes them as an interface. *)
Class StrMethods := {
  isdigit : char -> bool;
  isupper : char -> bool;
  islower : char -> bool;
  isalnum : char -> bool
}.

Inductive PasswordStrength :=
| VERY_WEAK
| WEAK
| MODERATE
| STRONG.

Definition color (self : PasswordStrength) : string :=
  match self with
  | VERY_WEAK => "red"
  | WEAK => "red"
  | MODERATE => "yellow"
  | STRONG => "green"
  end.

(** Lines 51-103.  Each [match length] tries its guarded cases in order;
    when no case matches, control leaves the [if]/[elif] chain and reaches
    the final [return PasswordStrength.VERY_WEAK]. *)
Definition _check_password_strength
    (digit upper lower symbol : bool) (length : Z) : PasswordStrength :=
  let final_return := VERY_WEAK in
  if digit && upper && lower && symbol then
    let num := length in
    if 13 <=? num then STRONG
    else if (11 <=? num) && (num <=? 12) then MODERATE
    else if (7 <=? num) && (num <=? 10) then WEAK
    else if num <=? 6 then VERY_WEAK
    else final_return
  else if digit && upper && lower then
    let num := length in
    if 14 <=? num then STRONG
    else if (11 <=? num) && (num <=? 13) then MODERATE
    else if (7 <=? num) && (num <=? 10) then WEAK
    else if num <=? 6 then VERY_WEAK
    else final_return
  else if upper && lower then
    let num := length in
    if 15 <=? num then STRONG
    else if (12 <=? num) && (num <=? 14) then MODERATE
    else if (7 <=? num) && (num <=? 11) then WEAK
    else if num <=? 6 then VERY_WEAK
    else final_return
  else if lower || upper then
    let num := length in
    if 18 <=? num then STRONG
    else if (14 <=? num) && (num <=? 17) then MODERATE
    else if (9 <=? num) && (num <=? 13) then WEAK
    else if num <=? 8 then VERY_WEAK
    else final_return
  else final_return.

(** [any(f(character) for character in password)] *)
Definition any_character (f : char -> bool) (password : pystr) : bool :=
  existsb f password.

Section Strength.
Context {M : StrMethods}.

(** The four locals of [strength], lines 45-48. *)
Definition digit_of (password : pystr) : bool :=
  any_character isdigit password.

Definition upper_of (password : pystr) : bool :=
  any_character isupper password.

Definition lower_of (password : pystr) : bool :=
  any_character islower password.

Definition symbol_of (password : pystr) : bool :=
  any_character (fun character => negb (isalnum character)) password.

(** Lines 43-49. *)
Definition strength (password : pystr) : PasswordStrength :=
  let digit := digit_of password in
  let upper := upper_of password in
  let lower := lower_of password in
  let symbol := symbol_of password in
  _check_password_strength digit upper lower symbol (len password).

End Strength.

(** ** The classification table, as the specification words it *)

(** The five composition tiers, in priority order. *)
Inductive tier := TierA | TierB | TierC | TierD | TierE.

(** First matching tier: A needs all four classes, B digit, upper and lower,
    C upper and lower, D lower or upper, E is the fallback. *)
Definition tier_of (digit upper lower symbol : bool) : tier :=
  if digit && upper && lower && symbol then TierA
  else if digit && upper && lower then TierB
  else if upper && lower then TierC
  else if lower || upper then TierD
  else TierE.

(** [in_band t c n]: the table puts length [n] of tier [t] in the band of
    category [c]. *)
Definition in_band (t : tier) (c : PasswordStrength) (n : Z) : Prop :=
  match t, c with
  | TierA, VERY_WEAK => n <= 6
  | TierA, WEAK => 7 <= n <= 10
  | TierA, MODERATE => 11 <= n <= 12
  | TierA, STRONG => 13 <= n
  | TierB, VERY_WEAK => n <= 6
  | TierB, WEAK => 7 <= n <= 10
  | TierB, MODERATE => 11 <= n <= 13
  | TierB, STRONG => 14 <= n
  | TierC, VERY_WEAK => n <= 6
  | TierC, WEAK => 7 <= n <= 11
  | TierC, MODERATE => 12 <= n <= 14
  | TierC, STRONG => 15 <= n
  | TierD, VERY_WEAK => n <= 8
  | TierD, WEAK => 9 <= n <= 13
  | TierD, MODERATE => 14 <= n <= 17
  | TierD, STRONG => 18 <= n
  | TierE, VERY_WEAK => True
  | TierE, _ => False
  end.

(** The order of the enumeration, weakest first. *)
Definition rank (c : PasswordStrength) : Z :=
  match c with
  | VERY_WEAK => 0
  | WEAK => 1
  | MODERATE => 2
  | STRONG => 3
  end.

Definition strength_le (c1 c2 : PasswordStrength) : Prop := rank c1 <= rank c2.

(** ** The ASCII rows of the character tables

    On code points below 128 the Python methods answer as follows:
    [isdigit] on '0'-'9', [isupper] on 'A'-'Z', [islower] on 'a'-'z',
    [isalnum] on their union.  [ascii_methods] reproduces these rows and
    nothing else (it answers [false] above 127, where the Unicode database
    would have to be consulted); it serves to run the classifier on ASCII
    passwords.  The theorems below hold for every [StrMethods]. *)
Definition in_range (lo hi : N) (c : char) : bool :=
  ((lo <=? c) && (c <=? hi))%N.

Definition ascii_methods : StrMethods := {|
  isdigit := in_range 48 57;
  isupper := in_range 65 90;
  islower := in_range 97 122;
  isalnum := fun c => in_range 48 57 c || in_range 65 90 c || in_range 97 122 c
|}.

(** The code points of an ASCII literal. *)
Fixpoint of_string (s : string) : pystr :=
  match s with
  | EmptyString => []
  | String a rest => N_of_ascii a :: of_string rest
  end.

(* ================================================================== *)
(** * Part II. User *)
(* ================================================================== *)

(** ** Python values and exceptions *)

(** The JSON-like values a configuration holds.  A [dict] keeps its
    insertion order, so it is a list of key/value pairs; keys are strings. *)
Inductive value :=
| VNone
| VBool (b : bool)
| VInt (n : Z)
| VStr (s : string)
| VList (items : list value)
| VDict (items : list (string * value)).

Inductive exn :=
| AttributeError
| IndexError
| KeyError
| TypeError.

(** The outcome of running a piece of Python: a value, or a raised
    exception that aborts everything after it. *)
Inductive result (A : Type) :=
| Ok (a : A)
| Raise (e : exn).

Arguments Ok {A} a.
Arguments Raise {A} e.

Definition bind {A B : Type} (c : result A) (k : A -> result B) : result B :=
  match c with
  | Ok a => k a
  | Raise e => Raise e
  end.

Notation "x <- c ;; k" := (bind c (fun x => k))
  (at level 61, c at next level, right associativity).

(** Lookup of a key among the items of a [dict]. *)
Fixpoint dict_find (key : string) (items : list (string * value)) : option value :=
  match items with
  | [] => None
  | (k, v) :: rest => if String.eqb k key then Some v else dict_find key rest
  end.

(** [obj.get(key, default)]: only a [dict] has the method. *)
Definition py_get (obj : value) (key : string) (default : value) : result value :=
  match obj with
  | VDict items =>
      match dict_find key items with
      | Some v => Ok v
      | None => Ok default
      end
  | _ => Raise AttributeError
  end.

(** [obj[key]] for a string [key]: a [dict] answers or raises [KeyError];
    no other value accepts a string subscript. *)
Definition py_getitem (obj : value) (key : string) : result value :=
  match obj with
  | VDict items =>
      match dict_find key items with
      | Some v => Ok v
      | None => Raise KeyError
      end
  | _ => Raise TypeError
  end.

(** [list(obj.keys())] *)
Definition py_keys (obj : value) : result (list string) :=
  match obj with
  | VDict items => Ok (map fst items)
  | _ => Raise AttributeError
  end.

(** The elements a [for] loop draws from [obj]. *)
Definition py_iter (obj : value) : result (list value) :=
  match obj with
  | VList items => Ok items
  | VDict items => Ok (map (fun kv => VStr (fst kv)) items)
  | VStr s => Ok (map (fun a => VStr (String a EmptyString)) (list_ascii_of_string s))
  | _ => Raise TypeError
  end.

(** [x is None] *)
Definition is_None (x : value) : bool :=
  match x with
  | VNone => true
  | _ => false
  end.

(** [isinstance(x, dict)] *)
Definition isinstance_dict (x : value) : bool :=
  match x with
  | VDict _ => true
  | _ => false
  end.

(** Truth value of [x] in an [if]. *)
Definition truthy (x : value) : bool :=
  match x with
  | VNone => false
  | VBool b => b
  | VInt n => negb (n =? 0)
  | VStr s => negb (String.eqb s "")
  | VList items => match items with [] => false | _ => true end
  | VDict items => match items with [] => false | _ => true end
  end.

(** ** The dataclass *)

(** The annotations ([str], [str], [bool]) are not enforced at run time: a
    field holds whatever value the constructor received. *)
Record User := mkUser {
  username : value;
  password : value;
  sudo : value
}.

(** Lines 121-126. *)
Definition json (self : User) : value :=
  VDict [("username", username self);
         ("!password", password self);
         ("sudo", sudo self)].

(** The body of the [for] loop of [_parse], lines 132-141, threaded over the
    entries with the local list [users]. *)
Fixpoint _parse_loop (entries : list value) (users : list User) : result (list User) :=
  match entries with
  | [] => Ok users
  | entry :: rest =>
      username <- py_get entry "username" VNone ;;
      password <- py_get entry "!password" (VStr "") ;;
      sudo <- py_get entry "sudo" (VBool false) ;;
      if is_None username then _parse_loop rest users
      else
        let user := mkUser username password sudo in
        _parse_loop rest (users ++ [user])
  end.

(** Lines 128-143. *)
Definition _parse (config_users : value) : result (list User) :=
  let users := [] in
  entries <- py_iter config_users ;;
  _parse_loop entries users.

(** Lines 145-154. *)
Definition _parse_backwards_compatible (config_users : value) (sudo : bool)
    : result (list User) :=
  keys <- py_keys config_users ;;
  if Z.of_nat (List.length keys) >? 0 then
    username <- match keys with
                | k :: _ => Ok k
                | [] => Raise IndexError
                end ;;
    entry <- py_getitem config_users username ;;
    password <- py_getitem entry "!password" ;;
    if truthy password then Ok [mkUser (VStr username) password (VBool sudo)]
    else Ok []
  else Ok [].

(** Lines 156-174. *)
Definition parse_arguments (config_users config_superusers : value)
    : result (list User) :=
  let users := [] in
  users <- (if isinstance_dict config_users then
              more <- _parse_backwards_compatible config_users false ;;
              Ok (users ++ more)
            else
              more <- _parse config_users ;;
              Ok (users ++ more)) ;;
  users <- (if isinstance_dict config_superusers then
              more <- _parse_backwards_compatible config_superusers true ;;
              Ok (users ++ more)
            else Ok users) ;;
  Ok users.

(** ** The input shapes and the records they denote *)

(** Current shape: a sequence whose entries are mappings. *)
Definition current_shape (config_users : value) : bool :=
  match config_users with
  | VList entries => forallb isinstance_dict entries
  | _ => false
  end.

Definition has_password_key (entry : value) : bool :=
  match entry with
  | VDict items =>
      match dict_find "!password" items with
      | Some _ => true
      | None => false
      end
  | _ => false
  end.

(** Legacy shape: a mapping whose sub-mappings contain ['!password']. *)
Definition legacy_shape (config : value) : bool :=
  match config with
  | VDict items => forallb (fun kv => has_password_key (snd kv)) items
  | _ => false
  end.

(** A well-formed pair of inputs: users in either shape, superusers absent
    or in the legacy shape. *)
Definition well_formed (config_users config_superusers : value) : bool :=
  (current_shape config_users || legacy_shape config_users)
  && (is_None config_superusers || legacy_shape config_superusers).

(** The entry carries a username: the key is present and its value is not
    null. *)
Definition has_username (entry : value) : bool :=
  match entry with
  | VDict items =>
      match dict_find "username" items with
      | Some VNone => false
      | Some _ => true
      | None => false
      end
  | _ => false
  end.

(** The value of [key] in [entry], or [default] when the key is absent. *)
Definition field_or (entry : value) (key : string) (default : value) : value :=
  match entry with
  | VDict items =>
      match dict_find key items with
      | Some v => v
      | None => default
      end
  | _ => default
  end.

(** The record an entry with a username denotes. *)
Definition record_of (entry : value) : User :=
  mkUser (field_or entry "username" VNone)
         (field_or entry "!password" (VStr ""))
         (field_or entry "sudo" (VBool false)).

(** The record, if any, a legacy mapping denotes: first key only, dropped
    when its password is falsy. *)
Definition legacy_record (config : value) (sudo : bool) : list User :=
  match config with
  | VDict ((name, VDict sub) :: _) =>
      match dict_find "!password" sub with
      | Some pw => if truthy pw then [mkUser (VStr name) pw (VBool sudo)] else []
      | None => []
      end
  | _ => []
  end.

(** The records of [usersInput], per its shape. *)
Definition users_records (config_users : value) : list User :=
  match config_users with
  | VList entries => map record_of (filter has_username entries)
  | _ => legacy_record config_users false
  end.

(** The record follows the annotations of the dataclass. *)
Definition User_typed (r : User) : bool :=
  match username r, password r, sudo r with
  | VStr _, VStr _, VBool _ => true
  | _, _, _ => false
  end.

(** Every ['username'] of a current-shape input is a string or null, as the
    serialization type has it. *)
Definition username_typed (entry : value) : bool :=
  match entry with
  | VDict items =>
      match dict_find "username" items with
      | None => true
      | Some VNone => true
      | Some (VStr _) => true
      | Some _ => false
      end
  | _ => true
  end.

Definition usernames_typed (config_users : value) : bool :=
  match config_users with
  | VList entries => forallb username_typed entries
  | _ => true
  end.

Definition nonempty_username (r : User) : bool :=
  match username r with
  | VStr s => negb (String.eqb s "")
  | _ => false
  end.

(** No username given in the input is the empty string: neither a
    ['username'] value of an entry nor the first key of a legacy mapping. *)
Definition entry_name_nonempty (entry : value) : bool :=
  match entry with
  | VDict items =>
      match dict_find "username" items with
      | Some (VStr s) => negb (String.eqb s "")
      | _ => true
      end
  | _ => true
  end.

Definition names_nonempty (config : value) : bool :=
  match config with
  | VList entries => forallb entry_name_nonempty entries
  | VDict ((name, _) :: _) => negb (String.eqb name "")
  | _ => true
  end.

(** Four entries: a full one, one without username, one with a null
    username, one with a username only. *)
Definition sample_entries : list value :=
  [VDict [("username", VStr "ada"); ("!password", VStr "x"); ("sudo", VBool true)];
   VDict [("!password", VStr "x")];
   VDict [("username", VNone); ("sudo", VBool true)];
   VDict [("username", VStr "bob")]].

(** ** The two parts of [parse_arguments] *)

Definition users_part (config_users : value) : result (list User) :=
  if isinstance_dict config_users
  then _parse_backwards_compatible config_users false
  else _parse config_users.

Definition superusers_part (config_superusers : value) : result (list User) :=
  if isinstance_dict config_superusers
  then _parse_backwards_compatible config_superusers true
  else Ok [].

(* ================================================================== *)
(** * Part III. Properties of the classifier *)
(* ================================================================== *)

(** Split every integer comparison of the goal into its two outcomes. *)
Ltac split_guards :=
  repeat match goal with
         | |- context [Z.leb ?a ?b] => destruct (Z.leb_spec a b)
         end.

(** Decide a statement about [_check_password_strength] at fixed flags. *)
Ltac by_bands :=
  unfold _check_password_strength; cbn [andb orb];
  split_guards; cbn in *; try lia; auto.

Lemma len_nonneg (password : pystr) : 0 <= len password.
Proof. unfold len. lia. Qed.

Lemma any_character_spec (f : char -> bool) (password : pystr) :
  any_character f password = true <->
  exists character, In character password /\ f character = true.
Proof. unfold any_character. apply existsb_exists. Qed.

Lemma any_character_false (f : char -> bool) (password : pystr) :
  (forall character, In character password -> f character = false) ->
  any_character f password = false.
Proof.
  intros Hall. unfold any_character.
  induction password as [|c rest IH]; cbn; [reflexivity|].
  rewrite (Hall c (or_introl eq_refl)). cbn.
  apply IH. intros c' Hin. apply Hall. now right.
Qed.

(** The table read on the flags and the length, whatever the length. *)
Lemma check_in_band (digit upper lower symbol : bool) (length : Z) :
  in_band (tier_of digit upper lower symbol)
          (_check_password_strength digit upper lower symbol length) length.
Proof.
  destruct digit, upper, lower, symbol; unfold tier_of; cbn [andb orb];
    by_bands.
Qed.

(** The bands of a tier do not overlap: the table names one category. *)
Lemma in_band_functional (t : tier) (c1 c2 : PasswordStrength) (n : Z) :
  in_band t c1 n -> in_band t c2 n -> c1 = c2.
Proof.
  destruct t, c1, c2; cbn; intros; try reflexivity; try lia; try contradiction.
Qed.

Section ClassifierProperties.
Context {M : StrMethods}.

(** C1. For every password, [strength] takes the first matching composition
    tier in the order A, B, C, D, E and returns the category in whose length
    band of that tier the length of the password lies (A: <=6, 7-10, 11-12,
    >=13; B: <=6, 7-10, 11-13, >=14; C: <=6, 7-11, 12-14, >=15; D: <=8, 9-13,
    14-17, >=18; E always very weak); no other category has the length in
    its band. *)
Theorem strength_follows_table (password : pystr) :
  let t := tier_of (digit_of password) (upper_of password)
                   (lower_of password) (symbol_of password) in
  in_band t (strength password) (len password) /\
  (forall c, in_band t c (len password) -> c = strength password).
Proof.
  cbn zeta. split.
  - apply check_in_band.
  - intros c Hc. eapply in_band_functional; [exact Hc|apply check_in_band].
Qed.

(** C2. The four flags: [digit], [upper], [lower] hold iff some character of
    the password is a digit, an upper-case, a lower-case character; [symbol]
    holds iff some character fails the alphanumeric test [isalnum]. *)
Theorem flags_characterised (password : pystr) :
  (digit_of password = true <->
     exists c, In c password /\ isdigit c = true) /\
  (upper_of password = true <->
     exists c, In c password /\ isupper c = true) /\
  (lower_of password = true <->
     exists c, In c password /\ islower c = true) /\
  (symbol_of password = true <->
     exists c, In c password /\ isalnum c = false) /\
  strength password =
    _check_password_strength (digit_of password) (upper_of password)
      (lower_of password) (symbol_of password) (len password).
Proof.
  repeat split; try apply any_character_spec.
  - intros H. apply any_character_spec in H. destruct H as [c [Hin Hc]].
    exists c. split; [exact Hin|]. now apply negb_true_iff.
  - intros [c [Hin Hc]]. apply any_character_spec.
    exists c. split; [exact Hin|]. now apply negb_true_iff.
Qed.

(** C3. A password with no upper-case and no lower-case character is very
    weak, whatever its length. *)
Theorem no_letters_very_weak (password : pystr) :
  (forall c, In c password -> isupper c = false /\ islower c = false) ->
  strength password = VERY_WEAK.
Proof.
  intros Hnone. unfold strength.
  assert (Hu : upper_of password = false).
  { apply any_character_false. intros c Hin. apply (Hnone c Hin). }
  assert (Hl : lower_of password = false).
  { apply any_character_false. intros c Hin. apply (Hnone c Hin). }
  rewrite Hu, Hl. unfold _check_password_strength.
  now rewrite !andb_false_r.
Qed.

End ClassifierProperties.

(** C10. At fixed flags the category never decreases when the length
    grows. *)
Theorem check_monotone (digit upper lower symbol : bool) (l1 l2 : Z) :
  l1 <= l2 ->
  strength_le (_check_password_strength digit upper lower symbol l1)
              (_check_password_strength digit upper lower symbol l2).
Proof.
  intros Hle. unfold strength_le.
  destruct digit, upper, lower, symbol; by_bands.
Qed.

(* ================================================================== *)
(** * Part IV. Properties of the parser *)
(* ================================================================== *)

(** ** The loop of [_parse] *)

(** One turn of the loop on a mapping: the entry is skipped or appended. *)
Lemma _parse_loop_step (items : list (string * value)) (rest : list value)
    (users : list User) :
  _parse_loop (VDict items :: rest) users =
  _parse_loop rest
    (users ++ if has_username (VDict items) then [record_of (VDict items)] else []).
Proof.
  cbn [_parse_loop]. unfold py_get, has_username, record_of, field_or.
  destruct (dict_find "username" items) as [u|];
    destruct (dict_find "!password" items) as [p|];
    destruct (dict_find "sudo" items) as [s|];
    cbn [bind]; try destruct u; cbn [is_None];
    rewrite ?app_nil_r; reflexivity.
Qed.

Lemma _parse_loop_current (entries : list value) :
  forallb isinstance_dict entries = true ->
  forall users,
    _parse_loop entries users =
    Ok (users ++ map record_of (filter has_username entries)).
Proof.
  induction entries as [|entry rest IH]; intros Hshape users.
  - cbn. now rewrite app_nil_r.
  - cbn [forallb] in Hshape. apply andb_true_iff in Hshape.
    destruct Hshape as [Hentry Hrest].
    destruct entry; try discriminate Hentry.
    rewrite _parse_loop_step, (IH Hrest). cbn [filter].
    destruct (has_username (VDict items)); cbn [map];
      now rewrite <- app_assoc.
Qed.

Lemma _parse_current (entries : list value) :
  current_shape (VList entries) = true ->
  _parse (VList entries) = Ok (map record_of (filter has_username entries)).
Proof.
  intros Hshape. unfold _parse. cbn [py_iter bind].
  now rewrite (_parse_loop_current entries Hshape).
Qed.

(** ** The legacy extraction *)

Lemma _parse_backwards_compatible_empty (sudo : bool) :
  _parse_backwards_compatible (VDict []) sudo = Ok [].
Proof. reflexivity. Qed.

(** On a non-empty mapping only the first item is read. *)
Lemma _parse_backwards_compatible_first (name : string) (entry : value)
    (rest : list (string * value)) (sudo : bool) :
  _parse_backwards_compatible (VDict ((name, entry) :: rest)) sudo =
  (password <- py_getitem entry "!password" ;;
   if truthy password then Ok [mkUser (VStr name) password (VBool sudo)]
   else Ok []).
Proof.
  unfold _parse_backwards_compatible.
  cbn [py_keys bind map fst List.length].
  replace (Z.of_nat (S (List.length (map fst rest))) >? 0) with true
    by (symmetry; apply Z.gtb_lt; lia).
  cbn [bind py_getitem dict_find]. now rewrite String.eqb_refl.
Qed.

Lemma _parse_backwards_compatible_legacy (config : value) (sudo : bool) :
  legacy_shape config = true ->
  _parse_backwards_compatible config sudo = Ok (legacy_record config sudo).
Proof.
  intros Hshape. destruct config; try discriminate Hshape.
  destruct items as [|[name entry] rest]; [reflexivity|].
  rewrite _parse_backwards_compatible_first.
  cbn [legacy_shape forallb snd] in Hshape.
  apply andb_true_iff in Hshape. destruct Hshape as [Hkey _].
  destruct entry; try discriminate Hkey.
  cbn [has_password_key] in Hkey. cbn [py_getitem legacy_record].
  destruct (dict_find "!password" items) as [pw|]; [|discriminate Hkey].
  cbn [bind]. now destruct (truthy pw).
Qed.

(** ** The merge *)

Lemma users_part_well_formed (config_users : value) :
  current_shape config_users || legacy_shape config_users = true ->
  (if isinstance_dict config_users
   then _parse_backwards_compatible config_users false
   else _parse config_users) = Ok (users_records config_users).
Proof.
  intros Hshape. apply orb_true_iff in Hshape.
  destruct config_users; cbn [isinstance_dict];
    destruct Hshape as [Hc|Hl]; try discriminate.
  - now apply _parse_current.
  - now apply _parse_backwards_compatible_legacy.
Qed.

Lemma superusers_part_well_formed (config_superusers : value) (users : list User) :
  is_None config_superusers || legacy_shape config_superusers = true ->
  (if isinstance_dict config_superusers
   then more <- _parse_backwards_compatible config_superusers true ;;
        Ok (users ++ more)
   else Ok users) = Ok (users ++ legacy_record config_superusers true).
Proof.
  intros Hshape. apply orb_true_iff in Hshape.
  destruct config_superusers; cbn [isinstance_dict];
    destruct Hshape as [Hn|Hl]; try discriminate;
    try (cbn [legacy_record]; now rewrite app_nil_r).
  now rewrite (_parse_backwards_compatible_legacy _ true Hl).
Qed.

Lemma parse_arguments_well_formed (config_users config_superusers : value) :
  well_formed config_users config_superusers = true ->
  parse_arguments config_users config_superusers =
  Ok (users_records config_users ++ legacy_record config_superusers true).
Proof.
  intros Hwf. apply andb_true_iff in Hwf. destruct Hwf as [Hu Hs].
  unfold parse_arguments.
  pose proof (users_part_well_formed config_users Hu) as Hpart.
  destruct (isinstance_dict config_users); rewrite Hpart; cbn [bind app];
    rewrite (superusers_part_well_formed _ _ Hs); reflexivity.
Qed.

(** What a legacy mapping yields: at most one record, carrying the flag it
    was asked for and the first key as its name. *)
Lemma legacy_record_inv (config : value) (sudo : bool) (r : User) :
  In r (legacy_record config sudo) ->
  exists name entry rest pw,
    config = VDict ((name, entry) :: rest) /\
    truthy pw = true /\
    r = mkUser (VStr name) pw (VBool sudo).
Proof.
  destruct config; try contradiction.
  destruct items as [|[name entry] rest]; [contradiction|].
  destruct entry; try contradiction. cbn [legacy_record].
  destruct (dict_find "!password" items) as [pw|]; [|contradiction].
  destruct (truthy pw) eqn:Ht; [|contradiction].
  intros [<-|[]]. now exists name, (VDict items), rest, pw.
Qed.

Lemma legacy_record_length (config : value) (sudo : bool) :
  (List.length (legacy_record config sudo) <= 1)%nat.
Proof.
  destruct config; cbn; try lia.
  destruct items as [|[name entry] rest]; cbn; try lia.
  destruct entry; cbn; try lia.
  destruct (dict_find "!password" items) as [pw|]; cbn; try lia.
  destruct (truthy pw); cbn; lia.
Qed.

(** ** The claims about the parser *)

(** C4. On a current-shape sequence, [_parse] (and [parse_arguments] with no
    superusers) drops, without raising, every entry whose username is absent
    or null and yields for every other entry one record, in input order,
    with the entry's username, its ['!password'] or the empty string, and
    its ['sudo'] or false. *)
Theorem parse_current_shape (entries : list value) :
  current_shape (VList entries) = true ->
  _parse (VList entries) = Ok (map record_of (filter has_username entries)) /\
  parse_arguments (VList entries) VNone =
    Ok (map record_of (filter has_username entries)).
Proof.
  intros Hshape. split; [now apply _parse_current|].
  unfold parse_arguments. cbn [isinstance_dict].
  rewrite (_parse_current entries Hshape). cbn [bind app]. reflexivity.
Qed.

(** C5. On a legacy-shape mapping only the first key is consulted: the
    items after it do not influence the result; a falsy password of the
    first entry yields no record, any other password yields one record,
    whose sudo flag is false. *)
Theorem parse_legacy_first_key (name : string) (sub rest : list (string * value))
    (pw : value) :
  dict_find "!password" sub = Some pw ->
  let config_users := VDict ((name, VDict sub) :: rest) in
  parse_arguments config_users VNone =
    Ok (if truthy pw then [mkUser (VStr name) pw (VBool false)] else []) /\
  (forall rest',
     parse_arguments (VDict ((name, VDict sub) :: rest')) VNone =
     parse_arguments config_users VNone).
Proof.
  intros Hpw. cbn zeta.
  assert (Hgen : forall others,
             parse_arguments (VDict ((name, VDict sub) :: others)) VNone =
             Ok (if truthy pw then [mkUser (VStr name) pw (VBool false)] else [])).
  { intros others. unfold parse_arguments. cbn [isinstance_dict].
    rewrite _parse_backwards_compatible_first. cbn [py_getitem].
    rewrite Hpw. cbn [bind]. now destruct (truthy pw). }
  split; [apply Hgen|]. intros rest'. now rewrite !Hgen.
Qed.

(** C6. On a well-formed pair the output is the records of [usersInput], per
    its shape, followed by the record, if any, of [superusersInput]; there
    is at most one such record and its sudo flag is true; none is appended
    when [superusersInput] is [None], is empty, or has a first entry with an
    empty password. *)
Theorem parse_merge_rule (config_users config_superusers : value) :
  well_formed config_users config_superusers = true ->
  exists appended,
    (if isinstance_dict config_users
     then _parse_backwards_compatible config_users false
     else _parse config_users) = Ok (users_records config_users) /\
    parse_arguments config_users config_superusers =
      Ok (users_records config_users ++ appended) /\
    appended = legacy_record config_superusers true /\
    (List.length appended <= 1)%nat /\
    (forall r, In r appended -> sudo r = VBool true) /\
    (config_superusers = VNone -> appended = []) /\
    (config_superusers = VDict [] -> appended = []) /\
    (forall name sub rest,
       config_superusers = VDict ((name, VDict sub) :: rest) ->
       dict_find "!password" sub = Some (VStr "") -> appended = []).
Proof.
  intros Hwf. exists (legacy_record config_superusers true).
  pose proof Hwf as Hparts. apply andb_true_iff in Hparts.
  destruct Hparts as [Hu _].
  repeat split.
  - now apply users_part_well_formed.
  - now apply parse_arguments_well_formed.
  - apply legacy_record_length.
  - intros r Hin. apply legacy_record_inv in Hin.
    destruct Hin as (name & entry & rest & pw & _ & _ & ->). reflexivity.
  - now intros ->.
  - now intros ->.
  - intros name sub rest -> Hpw. cbn [legacy_record]. now rewrite Hpw.
Qed.

(** C7. Serialization never fails: [json] is a mapping of the three keys to
    the three fields; and parsing the one-element sequence of a serialized
    record, with empty superusers, gives back that record alone. *)
Theorem json_roundtrip (r : User) :
  User_typed r = true ->
  (exists items,
     json r = VDict items /\
     map fst items = ["username"; "!password"; "sudo"] /\
     dict_find "username" items = Some (username r) /\
     dict_find "!password" items = Some (password r) /\
     dict_find "sudo" items = Some (sudo r)) /\
  parse_arguments (VList [json r]) (VDict []) = Ok [r].
Proof.
  intros Htyped. split.
  - eexists. split; [reflexivity|]. cbn. now repeat split.
  - destruct r as [u p s]. unfold User_typed in Htyped. cbn in Htyped.
    destruct u; try discriminate Htyped. reflexivity.
Qed.

(** C8, as the code has it. On a well-formed input whose ['username'] values
    are strings or null, parsing succeeds and every record of the output has
    a string as username, never null; the username is non-empty whenever no
    username given in the input (a ['username'] value, the first key of a
    legacy mapping) is empty.  Usernames are not validated: an empty one
    passes through. *)
Theorem parsed_usernames (config_users config_superusers : value) :
  well_formed config_users config_superusers = true ->
  usernames_typed config_users = true ->
  exists users,
    parse_arguments config_users config_superusers = Ok users /\
    (forall r, In r users -> exists name, username r = VStr name) /\
    (names_nonempty config_users = true ->
     names_nonempty config_superusers = true ->
     forall r, In r users -> nonempty_username r = true).
Proof.
  intros Hwf Htyped. eexists. split; [now apply parse_arguments_well_formed|].
  assert (Hlegacy : forall config sudo r,
             In r (legacy_record config sudo) ->
             (exists name, username r = VStr name) /\
             (names_nonempty config = true -> nonempty_username r = true)).
  { intros config b r Hin. apply legacy_record_inv in Hin.
    destruct Hin as (name & entry & rest & pw & -> & _ & ->).
    split; [now exists name|]. cbn. tauto. }
  assert (Hcurrent : forall entries r,
             forallb username_typed entries = true ->
             In r (map record_of (filter has_username entries)) ->
             (exists name, username r = VStr name) /\
             (forallb entry_name_nonempty entries = true ->
              nonempty_username r = true)).
  { intros entries r Hty Hin. apply in_map_iff in Hin.
    destruct Hin as (entry & <- & Hin). apply filter_In in Hin.
    destruct Hin as [Hin Hhas].
    rewrite forallb_forall in Hty. specialize (Hty entry Hin).
    destruct entry; try discriminate Hhas.
    unfold has_username in Hhas. unfold username_typed in Hty.
    unfold record_of, field_or, nonempty_username. cbn [username].
    destruct (dict_find "username" items) as [u|] eqn:Hu; [|discriminate Hhas].
    destruct u; try discriminate.
    split; [now exists s|]. intros Hne.
    rewrite forallb_forall in Hne. specialize (Hne _ Hin).
    unfold entry_name_nonempty in Hne. now rewrite Hu in Hne. }
  assert (Husers : forall r,
             In r (users_records config_users) ->
             (exists name, username r = VStr name) /\
             (names_nonempty config_users = true -> nonempty_username r = true)).
  { intros r Hin. destruct config_users;
      try (now apply (Hlegacy _ false r Hin)).
    now apply Hcurrent. }
  split.
  - intros r Hin. apply in_app_or in Hin. destruct Hin as [Hin|Hin].
    + now apply Husers.
    + now apply (Hlegacy _ _ _ Hin).
  - intros Hnu Hns r Hin. apply in_app_or in Hin. destruct Hin as [Hin|Hin].
    + now apply Husers.
    + now apply (Hlegacy _ _ _ Hin).
Qed.

(** C9. Neither component raises: [strength] returns one of the four
    categories on every string, and [parse_arguments] returns a list of
    records on every well-formed pair of inputs. *)
Theorem never_raises {M : StrMethods} (password : pystr)
    (config_users config_superusers : value) :
  (exists c, strength password = c /\ In c [VERY_WEAK; WEAK; MODERATE; STRONG]) /\
  (well_formed config_users config_superusers = true ->
   exists users, parse_arguments config_users config_superusers = Ok users).
Proof.
  split.
  - exists (strength password). split; [reflexivity|].
    destruct (strength password); cbn; tauto.
  - intros Hwf. eexists. now apply parse_arguments_well_formed.
Qed.

(* ================================================================== *)
(** * Part V. The theorems at concrete inputs *)
(* ================================================================== *)

(** ** The examples of the specification, run on the ASCII tables *)

Example strength_empty :
  @strength ascii_methods (of_string "") = VERY_WEAK.
Proof. reflexivity. Qed.

Example strength_all_classes_long :
  @strength ascii_methods (of_string "Ab3!longerthanthirteenchars") = STRONG.
Proof. reflexivity. Qed.

Example strength_lower_nine :
  @strength ascii_methods (of_string "abcdefghi") = WEAK.
Proof. reflexivity. Qed.

Example strength_upper_sixteen :
  @strength ascii_methods (of_string "ABCDEFGHIJKLMNOP") = MODERATE.
Proof. reflexivity. Qed.

Example strength_digits_only :
  @strength ascii_methods (of_string "12345678") = VERY_WEAK.
Proof. reflexivity. Qed.

Example parse_one_entry :
  parse_arguments
    (VList [VDict [("username", VStr "ada"); ("!password", VStr "x");
                   ("sudo", VBool true)]])
    (VDict [])
  = Ok [mkUser (VStr "ada") (VStr "x") (VBool true)].
Proof. reflexivity. Qed.

Example parse_missing_username :
  parse_arguments (VList [VDict [("!password", VStr "x")]]) (VDict []) = Ok [].
Proof. reflexivity. Qed.

Example parse_legacy_users :
  parse_arguments (VDict [("root", VDict [("!password", VStr "pw")])]) VNone
  = Ok [mkUser (VStr "root") (VStr "pw") (VBool false)].
Proof. reflexivity. Qed.

Example parse_legacy_superusers :
  parse_arguments (VList []) (VDict [("admin", VDict [("!password", VStr "pw")])])
  = Ok [mkUser (VStr "admin") (VStr "pw") (VBool true)].
Proof. reflexivity. Qed.

Example parse_legacy_empty_password :
  parse_arguments (VList []) (VDict [("admin", VDict [("!password", VStr "")])])
  = Ok [].
Proof. reflexivity. Qed.

(** Outside the contract the run raises: an entry that is no mapping has no
    [get], a legacy entry without ['!password'] has no such key. *)
Example parse_entry_not_a_mapping :
  parse_arguments (VList [VStr "ada"]) VNone = Raise AttributeError.
Proof. reflexivity. Qed.

Example parse_legacy_without_password :
  parse_arguments (VDict [("root", VDict [])]) VNone = Raise KeyError.
Proof. reflexivity. Qed.

(** ** Instances of the theorems *)

Lemma strength_follows_table_witness :
  in_band TierA STRONG 27 /\
  @strength ascii_methods (of_string "Ab3!longerthanthirteenchars") = STRONG.
Proof.
  assert (Hband : in_band TierA STRONG 27) by (cbn; lia).
  split; [exact Hband|]. symmetry.
  exact (proj2 (@strength_follows_table ascii_methods
                  (of_string "Ab3!longerthanthirteenchars")) STRONG Hband).
Defined.

Lemma no_letters_very_weak_witness :
  (forall c, In c (of_string "12345678") ->
             @isupper ascii_methods c = false /\ @islower ascii_methods c = false) /\
  @strength ascii_methods (of_string "12345678") = VERY_WEAK.
Proof.
  assert (Hnone : forall c, In c (of_string "12345678") ->
             @isupper ascii_methods c = false /\ @islower ascii_methods c = false).
  { intros c Hin. cbn in Hin.
    repeat (destruct Hin as [<-|Hin]; [split; reflexivity|]).
    contradiction. }
  split; [exact Hnone|].
  exact (@no_letters_very_weak ascii_methods (of_string "12345678") Hnone).
Defined.

Lemma check_monotone_witness :
  6 <= 13 /\
  strength_le (_check_password_strength true true true true 6)
              (_check_password_strength true true true true 13).
Proof.
  split; [lia|]. apply (check_monotone true true true true 6 13). lia.
Defined.

Lemma parse_current_shape_witness :
  current_shape (VList sample_entries) = true /\
  _parse (VList sample_entries) =
    Ok [mkUser (VStr "ada") (VStr "x") (VBool true);
        mkUser (VStr "bob") (VStr "") (VBool false)].
Proof.
  split; [reflexivity|].
  exact (proj1 (parse_current_shape sample_entries eq_refl)).
Defined.

Lemma parse_legacy_first_key_witness :
  parse_arguments
    (VDict [("root", VDict [("!password", VStr "pw")]);
            ("guest", VDict [("!password", VStr "other")])]) VNone
  = Ok [mkUser (VStr "root") (VStr "pw") (VBool false)].
Proof.
  exact (proj1 (parse_legacy_first_key "root" [("!password", VStr "pw")]
                  [("guest", VDict [("!password", VStr "other")])]
                  (VStr "pw") eq_refl)).
Defined.

Lemma parse_merge_rule_witness :
  exists appended,
    parse_arguments (VList sample_entries)
      (VDict [("admin", VDict [("!password", VStr "pw")])])
    = Ok ([mkUser (VStr "ada") (VStr "x") (VBool true);
           mkUser (VStr "bob") (VStr "") (VBool false)] ++ appended) /\
    appended = [mkUser (VStr "admin") (VStr "pw") (VBool true)].
Proof.
  destruct (parse_merge_rule (VList sample_entries)
              (VDict [("admin", VDict [("!password", VStr "pw")])]) eq_refl)
    as (appended & _ & Hparse & Happ & _).
  exists appended. split; [exact Hparse|exact Happ].
Defined.

Lemma json_roundtrip_witness :
  User_typed (mkUser (VStr "ada") (VStr "x") (VBool true)) = true /\
  parse_arguments (VList [json (mkUser (VStr "ada") (VStr "x") (VBool true))])
    (VDict [])
  = Ok [mkUser (VStr "ada") (VStr "x") (VBool true)].
Proof.
  split; [reflexivity|].
  exact (proj2 (json_roundtrip (mkUser (VStr "ada") (VStr "x") (VBool true))
                  eq_refl)).
Defined.

Lemma parsed_usernames_witness :
  exists users,
    parse_arguments (VList sample_entries)
      (VDict [("admin", VDict [("!password", VStr "pw")])]) = Ok users /\
    forall r, In r users -> nonempty_username r = true.
Proof.
  destruct (parsed_usernames (VList sample_entries)
              (VDict [("admin", VDict [("!password", VStr "pw")])])
              eq_refl eq_refl)
    as (users & Hparse & _ & Hnonempty).
  exists users. split; [exact Hparse|]. exact (Hnonempty eq_refl eq_refl).
Defined.

Lemma never_raises_witness :
  exists users,
    parse_arguments (VDict [("root", VDict [("!password", VStr "pw")])]) VNone
    = Ok users.
Proof.
  exact (proj2 (@never_raises ascii_methods (of_string "")
                  (VDict [("root", VDict [("!password", VStr "pw")])]) VNone)
               eq_refl).
Defined.

(** C8 as stated fails: these well-formed inputs, one of each shape, give a
    record whose username is the empty string. *)
Lemma empty_username_passes :
  well_formed (VList [VDict [("username", VStr "")]]) VNone = true /\
  usernames_typed (VList [VDict [("username", VStr "")]]) = true /\
  parse_arguments (VList [VDict [("username", VStr "")]]) VNone
    = Ok [mkUser (VStr "") (VStr "") (VBool false)] /\
  nonempty_username (mkUser (VStr "") (VStr "") (VBool false)) = false /\
  well_formed (VDict [("", VDict [("!password", VStr "pw")])]) VNone = true /\
  parse_arguments (VDict [("", VDict [("!password", VStr "pw")])]) VNone
    = Ok [mkUser (VStr "") (VStr "pw") (VBool false)] /\
  nonempty_username (mkUser (VStr "") (VStr "pw") (VBool false)) = false.
Proof. repeat split. Qed.

(* ================================================================== *)
(** * Part VI. Further properties of the classifier *)
(* ================================================================== *)

(** Follow the guards of the goal one at a time, reducing the conditional
    each one decides before looking for the next. *)
Ltac walk_guards :=
  repeat match goal with
         | |- context [Z.leb ?a ?b] =>
             destruct (Z.leb_spec a b); cbn [andb orb negb]
         end.

Ltac by_walk :=
  unfold _check_password_strength; cbn [andb orb];
  walk_guards; cbn in *; try lia; auto.

(** More character classes and more length never lower the category. *)
Lemma check_monotone_flags_length
    (d u l s d' u' l' s' : bool) (n n' : Z) :
  implb d d' = true -> implb u u' = true ->
  implb l l' = true -> implb s s' = true -> n <= n' ->
  rank (_check_password_strength d u l s n)
  <= rank (_check_password_strength d' u' l' s' n').
Proof.
  intros Hd Hu Hl Hs Hn.
  destruct d, d'; try discriminate Hd; clear Hd;
    destruct u, u'; try discriminate Hu; clear Hu;
    destruct l, l'; try discriminate Hl; clear Hl;
    destruct s, s'; try discriminate Hs; clear Hs;
    by_walk.
Qed.

Lemma any_character_app (f : char -> bool) (p q : pystr) :
  any_character f (p ++ q) = any_character f p || any_character f q.
Proof. unfold any_character. apply existsb_app. Qed.

Lemma any_character_Permutation (f : char -> bool) (p q : pystr) :
  Permutation p q -> any_character f p = any_character f q.
Proof.
  unfold any_character. intros Hperm.
  induction Hperm as [|c p q _ IH|c c' p|p q r _ IH1 _ IH2]; cbn.
  - reflexivity.
  - now rewrite IH.
  - destruct (f c), (f c'); reflexivity.
  - now rewrite IH1.
Qed.

Lemma implb_orb_l (a b : bool) : implb a (a || b) = true.
Proof. now destruct a, b. Qed.

Lemma implb_orb_r (a b : bool) : implb b (a || b) = true.
Proof. now destruct a, b. Qed.

Lemma len_app (p q : pystr) : len (p ++ q) = len p + len q.
Proof. unfold len. rewrite length_app. lia. Qed.

(** X1. Adding a character class, at the same length, never lowers the
    category. *)
Theorem check_monotone_flags (d u l s d' u' l' s' : bool) (n : Z) :
  implb d d' = true -> implb u u' = true ->
  implb l l' = true -> implb s s' = true ->
  strength_le (_check_password_strength d u l s n)
              (_check_password_strength d' u' l' s' n).
Proof.
  intros Hd Hu Hl Hs. unfold strength_le.
  apply check_monotone_flags_length; auto. lia.
Qed.

(** X4. Without both letter cases the digit and symbol flags do not count;
    and the symbol flag counts only together with the three others. *)
Theorem digit_symbol_irrelevant (d u l s : bool) (n : Z) :
  (u && l = false ->
   _check_password_strength d u l s n = _check_password_strength false u l false n) /\
  (d && u && l = false ->
   _check_password_strength d u l s n = _check_password_strength d u l false n).
Proof.
  split; intros H; destruct d, u, l, s; try discriminate H; reflexivity.
Qed.

(** X5. What a category requires of the length and of the letters: anything
    above very weak needs a cased letter and at least 7 characters, moderate
    or better at least 11, strong at least 13. *)
Theorem category_requirements (d u l s : bool) (n : Z) :
  let c := _check_password_strength d u l s n in
  (c <> VERY_WEAK -> u || l = true /\ 7 <= n) /\
  (1 < rank c -> 11 <= n) /\
  (c = STRONG -> 13 <= n).
Proof.
  cbn zeta. split; [|split]; destruct d, u, l, s; by_walk;
    intros Hc; try congruence; try lia; split; try reflexivity; lia.
Qed.

Section ClassifierFurther.
Context {M : StrMethods}.

(** X2. Making a password longer, at either end, never lowers its
    category. *)
Theorem strength_extend (p q : pystr) :
  strength_le (strength p) (strength (p ++ q)) /\
  strength_le (strength p) (strength (q ++ p)).
Proof.
  unfold strength_le, strength, digit_of, upper_of, lower_of, symbol_of.
  split; rewrite !any_character_app, len_app;
    apply check_monotone_flags_length;
    auto using implb_orb_l, implb_orb_r;
    pose proof (len_nonneg q); lia.
Qed.

(** X3. The category depends on the characters, not on their order. *)
Theorem strength_Permutation (p q : pystr) :
  Permutation p q -> strength p = strength q.
Proof.
  intros Hperm. unfold strength, digit_of, upper_of, lower_of, symbol_of, len.
  rewrite (Permutation_length Hperm).
  now rewrite !(any_character_Permutation _ p q Hperm).
Qed.

(** X6. A password of at most 10 characters is shown in red; one of at
    least 18 characters with a cased letter is strong and shown in green. *)
Theorem color_by_length (password : pystr) :
  (len password <= 10 -> color (strength password) = "red") /\
  (18 <= len password ->
   (exists c, In c password /\ (isupper c = true \/ islower c = true)) ->
   strength password = STRONG /\ color (strength password) = "green").
Proof.
  split.
  - intros Hlen. unfold strength.
    destruct (digit_of password), (upper_of password), (lower_of password),
      (symbol_of password); by_walk.
  - intros Hlen (c & Hin & Hcased).
    assert (Hul : upper_of password || lower_of password = true).
    { apply orb_true_iff. destruct Hcased as [Hc|Hc]; [left|right];
        apply any_character_spec; now exists c. }
    assert (Hstrong : strength password = STRONG).
    { unfold strength. revert Hul.
      destruct (digit_of password), (upper_of password), (lower_of password),
        (symbol_of password); cbn [orb]; intros Hul;
        try discriminate Hul; by_walk. }
    split; [exact Hstrong|]. now rewrite Hstrong.
Qed.

End ClassifierFurther.

(* ================================================================== *)
(** * Part VII. Further properties of the parser *)
(* ================================================================== *)

(** ** Laws of the loop *)

(** An entry that is no mapping stops the loop with [AttributeError]. *)
Lemma _parse_loop_not_mapping (entry : value) (rest : list value)
    (users : list User) :
  isinstance_dict entry = false ->
  _parse_loop (entry :: rest) users = Raise AttributeError.
Proof. intros Hentry. destruct entry; try discriminate Hentry; reflexivity. Qed.

(** Running the loop over two lists in a row is running it over their
    concatenation. *)
Lemma _parse_loop_app (front back : list value) (users : list User) :
  _parse_loop (front ++ back) users =
  (users' <- _parse_loop front users ;; _parse_loop back users').
Proof.
  revert users. induction front as [|entry rest IH]; intros users.
  - reflexivity.
  - destruct (isinstance_dict entry) eqn:Hentry.
    + destruct entry; try discriminate Hentry.
      cbn [app]. rewrite !_parse_loop_step. apply IH.
    + cbn [app]. now rewrite !_parse_loop_not_mapping.
Qed.

(** The records already collected are a prefix of the result. *)
Lemma _parse_loop_acc (entries : list value) (users : list User) :
  _parse_loop entries users =
  (more <- _parse_loop entries [] ;; Ok (users ++ more)).
Proof.
  revert users. induction entries as [|entry rest IH]; intros users.
  - cbn. now rewrite app_nil_r.
  - destruct (isinstance_dict entry) eqn:Hentry.
    + destruct entry; try discriminate Hentry.
      rewrite !_parse_loop_step.
      remember (if has_username (VDict items)
                then [record_of (VDict items)] else []) as found.
      cbn [app]. rewrite (IH (users ++ found)), (IH found).
      destruct (_parse_loop rest []); cbn [bind]; [|reflexivity].
      now rewrite app_assoc.
    + now rewrite !_parse_loop_not_mapping.
Qed.

(** The loop succeeds only on mappings. *)
Lemma _parse_loop_raises (entries : list value) (users : list User) :
  forallb isinstance_dict entries = false ->
  _parse_loop entries users = Raise AttributeError.
Proof.
  revert users. induction entries as [|entry rest IH]; intros users Hsome.
  - discriminate Hsome.
  - cbn [forallb] in Hsome. destruct (isinstance_dict entry) eqn:Hentry.
    + destruct entry; try discriminate Hentry.
      rewrite _parse_loop_step. now apply IH.
    + now apply _parse_loop_not_mapping.
Qed.


(** The loop over serialized records. *)
Lemma _parse_loop_json (records users : list User) :
  _parse_loop (map json records) users =
  Ok (users ++ filter (fun r => negb (is_None (username r))) records).
Proof.
  revert users. induction records as [|r rest IH]; intros users.
  - cbn. now rewrite app_nil_r.
  - cbn [map]. unfold json at 1. rewrite _parse_loop_step, IH.
    destruct r as [u p s].
    cbn. destruct u; cbn; now rewrite <- ?app_assoc, ?app_nil_r.
Qed.


(** ** The two parts of the result *)

Lemma parse_arguments_parts (config_users config_superusers : value) :
  parse_arguments config_users config_superusers =
  (users <- users_part config_users ;;
   more <- superusers_part config_superusers ;;
   Ok (users ++ more)).
Proof.
  unfold parse_arguments, users_part, superusers_part.
  destruct (isinstance_dict config_users);
    [destruct (_parse_backwards_compatible config_users false)
    |destruct (_parse config_users)]; cbn [bind app]; try reflexivity;
    (destruct (isinstance_dict config_superusers);
     [destruct (_parse_backwards_compatible config_superusers true)|];
     cbn [bind]; now rewrite ?app_nil_r).
Qed.

(** What a successful legacy extraction returned, on any input. *)
Lemma _parse_backwards_compatible_inv (config : value) (sudo : bool)
    (users : list User) :
  _parse_backwards_compatible config sudo = Ok users ->
  users = [] \/
  exists name entry rest pw,
    config = VDict ((name, entry) :: rest) /\
    py_getitem entry "!password" = Ok pw /\
    truthy pw = true /\
    users = [mkUser (VStr name) pw (VBool sudo)].
Proof.
  destruct config; try discriminate.
  destruct items as [|[name entry] rest].
  - rewrite _parse_backwards_compatible_empty. intros [= <-]. now left.
  - rewrite _parse_backwards_compatible_first.
    destruct (py_getitem entry "!password") as [pw|e] eqn:Hpw;
      cbn [bind]; [|discriminate].
    destruct (truthy pw) eqn:Ht; intros [= <-]; [right|now left].
    now exists name, entry, rest, pw.
Qed.




Lemma parse_arguments_json (records : list User) :
  parse_arguments (VList (map json records)) VNone =
  Ok (filter (fun r => negb (is_None (username r))) records).
Proof.
  unfold parse_arguments, _parse. cbn [isinstance_dict py_iter bind].
  rewrite _parse_loop_json. reflexivity.
Qed.

Lemma filter_all {A : Type} (f : A -> bool) (xs : list A) :
  (forall x, In x xs -> f x = true) -> filter f xs = xs.
Proof.
  induction xs as [|x rest IH]; intros Hall; cbn; [reflexivity|].
  rewrite (Hall x (or_introl eq_refl)), IH; [reflexivity|].
  intros y Hin. apply Hall. now right.
Qed.

(** ** Composition and round trips *)

(** X7. Parsing a concatenation of two sequences is parsing each and
    concatenating the records; an exception in either is the exception of
    the whole, the first sequence's coming first. *)
Theorem _parse_concat (front back : list value) :
  _parse (VList (front ++ back)) =
  (users <- _parse (VList front) ;;
   more <- _parse (VList back) ;;
   Ok (users ++ more)).
Proof.
  unfold _parse. cbn [py_iter bind]. rewrite _parse_loop_app.
  destruct (_parse_loop front []) as [users|e]; cbn [bind]; [|reflexivity].
  apply _parse_loop_acc.
Qed.

(** X8. Serializing a list of records and parsing it back keeps, in order,
    exactly the records whose username is not [None]; when no username is
    [None] the list comes back unchanged. *)
Theorem parse_serialized (records : list User) :
  parse_arguments (VList (map json records)) VNone =
    Ok (filter (fun r => negb (is_None (username r))) records) /\
  ((forall r, In r records -> username r <> VNone) ->
   parse_arguments (VList (map json records)) VNone = Ok records).
Proof.
  split; [apply parse_arguments_json|].
  intros Hnames. rewrite parse_arguments_json, filter_all; [reflexivity|].
  intros r Hin. specialize (Hnames r Hin). now destruct (username r).
Qed.



(** ** Errors *)

(** X11. A sequence with an entry that is not a mapping makes [_parse]
    raise [AttributeError], and so [parse_arguments], whatever the
    superusers are: the records of the entries before it are lost. *)
Theorem parse_entry_not_mapping (entries : list value) :
  forallb isinstance_dict entries = false ->
  _parse (VList entries) = Raise AttributeError /\
  forall config_superusers,
    parse_arguments (VList entries) config_superusers = Raise AttributeError.
Proof.
  intros Hsome.
  assert (Hparse : _parse (VList entries) = Raise AttributeError).
  { unfold _parse. cbn [py_iter bind]. now apply _parse_loop_raises. }
  split; [exact Hparse|]. intros config_superusers.
  rewrite parse_arguments_parts. unfold users_part. cbn [isinstance_dict].
  now rewrite Hparse.
Qed.

(** X12. A legacy mapping whose first entry has no ['!password'] key raises
    [KeyError]; given as superusers it makes [parse_arguments] raise even
    though the users were parsed. *)
Theorem legacy_missing_password (name : string) (sub rest : list (string * value)) :
  dict_find "!password" sub = None ->
  let config := VDict ((name, VDict sub) :: rest) in
  (forall sudo, _parse_backwards_compatible config sudo = Raise KeyError) /\
  (forall config_superusers,
     parse_arguments config config_superusers = Raise KeyError) /\
  (forall entries,
     current_shape (VList entries) = true ->
     parse_arguments (VList entries) config = Raise KeyError).
Proof.
  intros Hmissing. cbn zeta.
  assert (Hraise : forall sudo,
             _parse_backwards_compatible (VDict ((name, VDict sub) :: rest)) sudo
             = Raise KeyError).
  { intros sudo. rewrite _parse_backwards_compatible_first.
    cbn [py_getitem]. now rewrite Hmissing. }
  split; [exact Hraise|]. split.
  - intros config_superusers. rewrite parse_arguments_parts.
    unfold users_part. cbn [isinstance_dict]. now rewrite Hraise.
  - intros entries Hshape. rewrite parse_arguments_parts.
    unfold users_part, superusers_part. cbn [isinstance_dict].
    rewrite (_parse_current entries Hshape), Hraise. reflexivity.
Qed.

(** X13. Whatever mapping it is given, a successful legacy extraction
    returns at most one record; that record is named by the first key, has
    the flag that was asked for and a password that is not falsy. *)
Theorem legacy_output (config : value) (sudo_flag : bool) (users : list User) :
  _parse_backwards_compatible config sudo_flag = Ok users ->
  (List.length users <= 1)%nat /\
  forall r, In r users ->
    sudo r = VBool sudo_flag /\
    truthy (password r) = true /\
    exists name entry rest,
      config = VDict ((name, entry) :: rest) /\ username r = VStr name.
Proof.
  intros Hrun. apply _parse_backwards_compatible_inv in Hrun.
  destruct Hrun as [->|(name & entry & rest & pw & -> & _ & Ht & ->)].
  - split; [cbn; lia|]. intros r [].
  - split; [cbn; lia|]. intros r [<-|[]]. cbn.
    repeat split; [exact Ht|]. now exists name, entry, rest.
Qed.

(** ** Instances of the further properties *)

Lemma check_monotone_flags_witness :
  strength_le (_check_password_strength false true true false 12)
              (_check_password_strength true true true true 12).
Proof.
  exact (check_monotone_flags false true true false true true true true 12
           eq_refl eq_refl eq_refl eq_refl).
Defined.

Lemma digit_symbol_irrelevant_witness :
  _check_password_strength true true false true 20
  = _check_password_strength false true false false 20.
Proof.
  exact (proj1 (digit_symbol_irrelevant true true false true 20) eq_refl).
Defined.

Lemma category_requirements_witness :
  _check_password_strength true true true true 13 = STRONG /\ 13 <= 13.
Proof.
  split; [reflexivity|].
  exact (proj2 (proj2 (category_requirements true true true true 13)) eq_refl).
Defined.

Lemma strength_Permutation_witness :
  @strength ascii_methods (of_string "a1B") = @strength ascii_methods (of_string "1Ba").
Proof.
  apply (@strength_Permutation ascii_methods). cbn.
  apply (perm_trans (perm_swap _ _ _)). apply perm_skip. apply perm_swap.
Defined.

Lemma color_by_length_witness :
  len (of_string "Ab3!") <= 10 /\
  color (@strength ascii_methods (of_string "Ab3!")) = "red".
Proof.
  assert (Hlen : len (of_string "Ab3!") <= 10) by (cbn; lia).
  split; [exact Hlen|].
  exact (proj1 (@color_by_length ascii_methods (of_string "Ab3!")) Hlen).
Defined.

Lemma parse_serialized_witness :
  parse_arguments
    (VList (map json [mkUser (VStr "ada") (VStr "x") (VBool true);
                      mkUser (VStr "bob") (VStr "") (VBool false)])) VNone
  = Ok [mkUser (VStr "ada") (VStr "x") (VBool true);
        mkUser (VStr "bob") (VStr "") (VBool false)].
Proof.
  apply (proj2 (parse_serialized
                  [mkUser (VStr "ada") (VStr "x") (VBool true);
                   mkUser (VStr "bob") (VStr "") (VBool false)])).
  intros r [<-|[<-|[]]]; discriminate.
Defined.



Lemma parse_entry_not_mapping_witness :
  parse_arguments
    (VList [VDict [("username", VStr "ada")]; VStr "bob"])
    (VDict [("admin", VDict [("!password", VStr "pw")])])
  = Raise AttributeError.
Proof.
  exact (proj2 (parse_entry_not_mapping
                  [VDict [("username", VStr "ada")]; VStr "bob"] eq_refl)
               (VDict [("admin", VDict [("!password", VStr "pw")])])).
Defined.

Lemma legacy_missing_password_witness :
  parse_arguments (VList sample_entries)
    (VDict [("admin", VDict [("password", VStr "pw")])])
  = Raise KeyError.
Proof.
  exact (proj2 (proj2 (legacy_missing_password "admin"
                         [("password", VStr "pw")] [] eq_refl))
               sample_entries eq_refl).
Defined.

Lemma legacy_output_witness :
  (List.length [mkUser (VStr "root") (VStr "pw") (VBool true)] <= 1)%nat.
Proof.
  exact (proj1 (legacy_output
                  (VDict [("root", VDict [("!password", VStr "pw")]);
                          ("guest", VInt 0)])
                  true [mkUser (VStr "root") (VStr "pw") (VBool true)] eq_refl)).
Defined.
